(** * pygame.ftfont: the font facade over the freetype engine

    A shallow embedding of [src_py/ftfont.py].  The module is a thin
    adapter: class [Font] derives from the engine's font type
    ([pygame._freetype.Font]) and narrows its interface, and the free
    function [SysFont] resolves a system font through
    [pygame.sysfont.SysFont].

    Python code is stateful and may raise, so methods are written in a
    small state-and-exception monad over the instance ([self]) together
    with a log of the calls that were delegated to the engine.  The engine,
    the path encoder and the system-font matcher are collaborators that
    live outside this file; they are the fields of the class [Freetype].
    The general theorems hold for every implementation of them; the runs
    on concrete inputs use the reference implementation given below. *)

From Stdlib Require Import ZArith List String Bool Lia.
From Stdlib Require Import Strings.Byte.
Import ListNotations.

Set Implicit Arguments.
Local Open Scope Z_scope.

(** ** Exceptions and outcomes *)

Record exn : Type := Exception { exc_class : string; exc_message : string }.

Definition ValueError (msg : string) : exn := Exception "ValueError" msg.
Definition NameError (msg : string) : exn := Exception "NameError" msg.
Definition TypeError (msg : string) : exn := Exception "TypeError" msg.

Inductive outcome (A : Type) : Type :=
| Return (a : A)
| Raise (e : exn).
Arguments Return {A} a.
Arguments Raise {A} e.

(** ** Python values *)

(** A Unicode string is a sequence of code points ([unicode_] of
    [pygame.compat]); a byte string is a sequence of bytes ([bytes_]). *)
Definition unicode_ := list N.
Definition bytes_ := list byte.

(** The Python objects that reach this module.  A float is the dyadic
    rational [m * 2^e] it denotes.  [VObject] stands for any other object
    (a file object, a Surface, a Color, ...): [truth] is the outcome of its
    truth test ([__bool__] or [__len__]), an answer or an exception. *)
Inductive value : Type :=
| VNone
| VBool (b : bool)
| VInt (z : Z)
| VFloat (m e : Z)
| VUnicode (s : unicode_)
| VBytes (b : bytes_)
| VObject (id : N) (truth : outcome bool).

(** ** Built-ins used by the module *)

(** [bool(x)]: Python's truth test. *)
Definition py_bool (x : value) : outcome bool :=
  match x with
  | VNone => Return false
  | VBool b => Return b
  | VInt z => Return (negb (z =? 0))
  | VFloat m _ => Return (negb (m =? 0))
  | VUnicode s => Return (match s with [] => false | _ => true end)
  | VBytes b => Return (match b with [] => false | _ => true end)
  | VObject _ truth => truth
  end.

(** [x is None]. *)
Definition is_None (x : value) : bool :=
  match x with VNone => true | _ => false end.

(** Sequence equality, and [sub in s]: [sub] occurs in [s] as a
    contiguous run. *)
Section Containment.
Variable A : Type.
Variable eqb : A -> A -> bool.

(** [s == t], element by element. *)
Fixpoint seq_eqb (s t : list A) : bool :=
  match s, t with
  | [], [] => true
  | a :: s', b :: t' => eqb a b && seq_eqb s' t'
  | _, _ => false
  end.

Fixpoint startswith (sub s : list A) : bool :=
  match sub, s with
  | [], _ => true
  | _ :: _, [] => false
  | a :: sub', b :: s' => eqb a b && startswith sub' s'
  end.

Fixpoint contains (sub s : list A) : bool :=
  startswith sub s
  || match s with
     | [] => false
     | _ :: s' => contains sub s'
     end.
End Containment.

Definition unicode_contains : unicode_ -> unicode_ -> bool := contains N.eqb.
Definition bytes_contains : bytes_ -> bytes_ -> bool := contains Byte.eqb.
Definition bytes_eqb : bytes_ -> bytes_ -> bool := seq_eqb Byte.eqb.

(** [int(r * 0.6875)] for an integer [r].  The constant 0.6875 is the
    dyadic fraction 11/16, so the double-precision product is the exact
    rational [11 * r / 16] for every [r] of magnitude below [2^49] (the
    engine's resolution is a C [unsigned int]); [int] then truncates
    toward zero. *)
Definition int_times_0_6875 (r : Z) : Z := Z.quot (11 * r) 16.

(** ** The instance *)

(** The attributes of a [Font] instance.  [handle] is the engine's own
    state behind the instance (the loaded face, its size and resolution);
    the other fields are the attributes this module reads or assigns. *)
Record FontObject (H : Type) : Type := MkFont {
  handle : H;
  antialiased : value;
  wide : value;
  oblique : value;
  underline : value;
  strength : value;
  kerning : value;
  origin : value;
  pad : value;
  ucs4 : value;
  underline_adjustment : value
}.

(** Attribute assignment, one updater per attribute. *)
Section Attributes.
Variable H : Type.
Implicit Type f : FontObject H.

Definition with_antialiased (v : value) f : FontObject H :=
  MkFont (handle f) v (wide f) (oblique f) (underline f) (strength f)
         (kerning f) (origin f) (pad f) (ucs4 f) (underline_adjustment f).
Definition with_wide (v : value) f : FontObject H :=
  MkFont (handle f) (antialiased f) v (oblique f) (underline f) (strength f)
         (kerning f) (origin f) (pad f) (ucs4 f) (underline_adjustment f).
Definition with_oblique (v : value) f : FontObject H :=
  MkFont (handle f) (antialiased f) (wide f) v (underline f) (strength f)
         (kerning f) (origin f) (pad f) (ucs4 f) (underline_adjustment f).
Definition with_underline (v : value) f : FontObject H :=
  MkFont (handle f) (antialiased f) (wide f) (oblique f) v (strength f)
         (kerning f) (origin f) (pad f) (ucs4 f) (underline_adjustment f).
Definition with_strength (v : value) f : FontObject H :=
  MkFont (handle f) (antialiased f) (wide f) (oblique f) (underline f) v
         (kerning f) (origin f) (pad f) (ucs4 f) (underline_adjustment f).
Definition with_kerning (v : value) f : FontObject H :=
  MkFont (handle f) (antialiased f) (wide f) (oblique f) (underline f)
         (strength f) v (origin f) (pad f) (ucs4 f) (underline_adjustment f).
Definition with_origin (v : value) f : FontObject H :=
  MkFont (handle f) (antialiased f) (wide f) (oblique f) (underline f)
         (strength f) (kerning f) v (pad f) (ucs4 f) (underline_adjustment f).
Definition with_pad (v : value) f : FontObject H :=
  MkFont (handle f) (antialiased f) (wide f) (oblique f) (underline f)
         (strength f) (kerning f) (origin f) v (ucs4 f) (underline_adjustment f).
Definition with_ucs4 (v : value) f : FontObject H :=
  MkFont (handle f) (antialiased f) (wide f) (oblique f) (underline f)
         (strength f) (kerning f) (origin f) (pad f) v (underline_adjustment f).
Definition with_underline_adjustment (v : value) f : FontObject H :=
  MkFont (handle f) (antialiased f) (wide f) (oblique f) (underline f)
         (strength f) (kerning f) (origin f) (pad f) (ucs4 f) v.
End Attributes.

(** ** Delegated calls *)

(** One entry per call delegated to the engine's constructor or to its
    render primitive.  [ERender] keeps the instance as the engine sees it
    when the call is made. *)
Inductive call (H : Type) : Type :=
| EInit (file : value) (size : Z) (resolution : Z)
| ERender (seen : FontObject H) (text color background : value).
Arguments EInit {H} file size resolution.
Arguments ERender {H} seen text color background.

(** The state a method runs in: the instance and the log of delegated
    calls, oldest first. *)
Record World (H : Type) : Type := MkWorld {
  self : FontObject H;
  log : list (call H)
}.

(** ** The collaborators *)

Class Freetype : Type := {
  (** the engine's state behind an instance *)
  Handle : Type;
  (** whether the interpreter's plain string literal is a Unicode string
      (Python 3) or a byte string (Python 2) *)
  str_is_unicode : bool;
  (** [pygame.encode_file_path(path, ValueError)] on a Unicode path: the
      path in the engine's representation, [None] when the encoding
      fails and the requested [ValueError] is raised *)
  encode_file_path : unicode_ -> option bytes_;
  (** the class attribute [Font.__default_font], that is
      [encode_file_path(get_default_font())]: [None] is Python's [None] *)
  default_font : option bytes_;
  (** [pygame._freetype.get_default_resolution()] *)
  get_default_resolution : Z;
  (** a fresh, not yet initialised instance (after [__new__]) *)
  ft_new : FontObject Handle;
  (** [_freetype.Font.__init__(self, file, size=, resolution=)] *)
  ft_init : value -> Z -> Z -> FontObject Handle ->
            outcome unit * FontObject Handle;
  (** [_freetype.Font.render(self, text, color, background)]: the
      rendered surface and its bounding rectangle *)
  ft_render : value -> value -> value -> FontObject Handle ->
              outcome (value * value) * FontObject Handle;
  (** [get_sized_ascender()] and [get_sized_descender()] *)
  ft_get_sized_ascender : FontObject Handle -> outcome Z;
  ft_get_sized_descender : FontObject Handle -> outcome Z;
  (** what [pygame.sysfont.SysFont] hands to the constructor callback for
      the request [(name, size, bold, italic)]: the resolved font path, the
      size and the two style flags still to be applied *)
  sysfont_resolve : value -> Z -> value -> value ->
                    value * Z * value * value
}.

(** ** The monad of methods *)

Definition M (S A : Type) : Type := S -> outcome A * S.

Definition ret {S A : Type} (a : A) : M S A := fun s => (Return a, s).

Definition raise {S A : Type} (e : exn) : M S A := fun s => (Raise e, s).

Definition bind {S A B : Type} (m : M S A) (k : A -> M S B) : M S B :=
  fun s =>
    match m s with
    | (Return a, s') => k a s'
    | (Raise e, s') => (Raise e, s')
    end.

(** [try: body finally: fin].  The clean-up runs on both exits; an
    exception of the clean-up replaces the pending result. *)
Definition try_finally {S A : Type} (body : M S A) (fin : M S unit)
  : M S A :=
  fun s =>
    match body s with
    | (r, s1) =>
        match fin s1 with
        | (Return _, s2) => (r, s2)
        | (Raise e, s2) => (Raise e, s2)
        end
    end.

(** Lifting a built-in that only computes. *)
Definition lift {S A : Type} (o : outcome A) : M S A := fun s => (o, s).

Declare Scope py_scope.
Delimit Scope py_scope with py.
Notation "x <- m ;; k" := (bind m (fun x => k))
  (at level 61, m at next level, right associativity) : py_scope.
Notation "m ;;; k" := (bind m (fun _ => k))
  (at level 61, right associativity) : py_scope.
Local Open Scope py_scope.

(** ** Class Font *)

Section FontClass.
Context {FT : Freetype}.

Abbreviation Obj := (FontObject Handle).
Abbreviation Meth := (M (World Handle)).

(** [self.attr] and [self.attr = v]. *)
Definition getattr (A : Type) (attr : Obj -> A) : Meth A :=
  fun w => (Return (attr (self w)), w).

Definition setattr (upd : value -> Obj -> Obj) (v : value) : Meth unit :=
  fun w => (Return tt, MkWorld (upd v (self w)) (log w)).

(** [super(Font, self).__init__(file, size=size, resolution=resolution)]
    and [super(Font, self).render(text, color, background)]: the call is
    logged and handed to the engine. *)
Definition super_init (file : value) (size resolution : Z) : Meth unit :=
  fun w =>
    let (r, f) := ft_init file size resolution (self w) in
    (r, MkWorld f (log w ++ [EInit file size resolution])).

Definition super_render (text color background : value)
  : Meth (value * value) :=
  fun w =>
    let (r, f) := ft_render text color background (self w) in
    (r, MkWorld f (log w ++ [ERender (self w) text color background])).

(** The empty plain-string literal of the running interpreter. *)
Definition empty_str : value :=
  if str_is_unicode then VUnicode [] else VBytes [].

(** Modelled from the spec: [as_unicode] and [as_bytes] of [pygame.compat]
    are not part of this file; [__unull = as_unicode(r"\x00")] is the
    one-character Unicode string holding the null code point and
    [__bnull = as_bytes("\x00")] the one-byte string holding a raw null
    byte. *)
Definition __unull : unicode_ := [0%N].
Definition __bnull : bytes_ := [x00].

(** [bfile == self.__default_font] for a byte string [bfile]. *)
Definition is_default_font (bfile : bytes_) : bool :=
  match default_font with
  | Some d => bytes_eqb bfile d
  | None => false
  end.

(** The name [kwds] is bound neither in [__init__] nor in the module:
    looking it up raises [NameError], worded as the interpreter does. *)
Definition kwds_is_unbound : exn :=
  NameError (if str_is_unicode
             then "name 'kwds' is not defined"
             else "global name 'kwds' is not defined").

(** [Font.__init__(self, file, size=-1)].  The assignment
    [kwds['resolution'] = 1] looks up the unbound name [kwds]. *)
Definition __init__ (file : value) (size : Z) : Meth unit :=
  let size := if size <=? 1 then 1 else size in
  let bfile :=
    match file with
    | VUnicode s =>
        match encode_file_path s with
        | Some b => VBytes b
        | None => empty_str
        end
    | _ => file
    end in
  let file :=
    match bfile with
    | VBytes b => if is_default_font b then VNone else file
    | _ => file
    end in
  resolution <-
    (if is_None file then
       let resolution := int_times_0_6875 get_default_resolution in
       if resolution =? 0
       then raise kwds_is_unbound
       else ret resolution
     else ret 0) ;;
  super_init file size resolution ;;;
  setattr (@with_strength _) (VFloat 6004799503160661 (-56)) ;;;
  setattr (@with_kerning _) (VBool false) ;;;
  setattr (@with_origin _) (VBool true) ;;;
  setattr (@with_pad _) (VBool true) ;;;
  setattr (@with_ucs4 _) (VBool true) ;;;
  setattr (@with_underline_adjustment _) (VFloat 1 0).

(** [Font.render(self, text, antialias, color, background=None)]. *)
Definition render (text antialias color background : value) : Meth value :=
  let text := if is_None text then empty_str else text in
  if match text with VUnicode s => unicode_contains __unull s | _ => false end
  then raise (ValueError "A null character was found in the text")
  else
  if match text with VBytes b => bytes_contains __bnull b | _ => false end
  then raise (ValueError "A null character was found in the text")
  else
    save_antialiased <- getattr (@antialiased _) ;;
    aa <- lift (py_bool antialias) ;;
    setattr (@with_antialiased _) (VBool aa) ;;;
    try_finally
      (sr <- super_render text color background ;;
       ret (fst sr))
      (setattr (@with_antialiased _) save_antialiased).

Definition set_bold (v : value) : Meth unit :=
  b <- lift (py_bool v) ;; setattr (@with_wide _) (VBool b).

Definition get_bold : Meth value := getattr (@wide _).

Definition set_italic (v : value) : Meth unit :=
  b <- lift (py_bool v) ;; setattr (@with_oblique _) (VBool b).

Definition get_italic : Meth value := getattr (@oblique _).

Definition set_underline (v : value) : Meth unit :=
  b <- lift (py_bool v) ;; setattr (@with_underline _) (VBool b).

Definition get_underline : Meth value := getattr (@underline _).

(** [self.get_sized_ascender()] and [self.get_sized_descender()]. *)
Definition get_sized_ascender : Meth Z :=
  fun w => (ft_get_sized_ascender (self w), w).

Definition get_sized_descender : Meth Z :=
  fun w => (ft_get_sized_descender (self w), w).

Definition get_ascent : Meth Z := get_sized_ascender.

Definition get_descent : Meth Z := get_sized_descender.

Definition get_height : Meth Z :=
  a <- get_sized_ascender ;;
  d <- get_sized_descender ;;
  ret (a - d + 1).

(** ** Module-level functions *)

Abbreviation Fun := (M (list (call Handle))).

(** [Font(file, size)]: a fresh instance, initialised by [__init__]. *)
Definition Font (file : value) (size : Z) : Fun Obj :=
  fun calls =>
    match __init__ file size (MkWorld ft_new calls) with
    | (Return _, w) => (Return (self w), log w)
    | (Raise e, w) => (Raise e, log w)
    end.

(** [font.method(...)] on an instance held in a local variable: the answer
    and the instance after the call. *)
Definition invoke (A : Type) (font : Obj) (m : Meth A) : Fun (A * Obj) :=
  fun calls =>
    match m (MkWorld font calls) with
    | (Return a, w) => (Return (a, self w), log w)
    | (Raise e, w) => (Raise e, log w)
    end.

(** A constructor callback [constructor(fontpath, size, bold, italic)]. *)
Definition constructor_t : Type := value -> Z -> value -> value -> Fun Obj.

(** Modelled from the spec: [pygame.sysfont.SysFont], imported as
    [_SysFont], is not part of this file.  It is the external matcher: it
    resolves the requested names to a font path, falling back on the
    built-in font instead of failing, and builds the font through the
    constructor callback it is given. *)
Definition _SysFont (name : value) (size : Z) (bold italic : value)
                    (constructor : constructor_t) : Fun Obj :=
  match sysfont_resolve name size bold italic with
  | (fontpath, size', bold', italic') =>
      constructor fontpath size' bold' italic'
  end.

(** The nested [def constructor(fontpath, size, bold, italic)] of
    [SysFont]. *)
Definition default_constructor : constructor_t :=
  fun fontpath size bold italic =>
    font <- Font fontpath size ;;
    r1 <- invoke font (set_bold bold) ;;
    r2 <- invoke (snd r1) (set_italic italic) ;;
    ret (snd r2).

(** [SysFont(name, size, bold=0, italic=0, constructor=None)]. *)
Definition SysFont (name : value) (size : Z) (bold italic : value)
                   (constructor : option constructor_t) : Fun Obj :=
  let constructor :=
    match constructor with
    | None => default_constructor
    | Some c => c
    end in
  _SysFont name size bold italic constructor.

End FontClass.

(** ** A reference implementation of the collaborators

    Used to run the module on concrete inputs.  Paths are encoded as
    ASCII and a path with a null or a non-ASCII code point cannot be
    encoded; the engine keeps the arguments of its constructor as its
    handle, loads every file and renders every string; the matcher knows
    no system font and always falls back on the built-in font, which it
    names by [None]. *)

Definition encode_ascii (path : unicode_) : option bytes_ :=
  if forallb (fun c => (0 <? c)%N && (c <? 128)%N) path
  then Some (map (fun c => match Byte.of_N c with
                           | Some b => b
                           | None => x00
                           end) path)
  else None.

Definition reference_init (file : value) (size resolution : Z)
  (f : FontObject (option (value * Z * Z)))
  : outcome unit * FontObject (option (value * Z * Z)) :=
  (Return tt,
   MkFont (Some (file, size, resolution)) (VBool true) (VBool false)
          (VBool false) (VBool false) (strength f) (kerning f) (origin f)
          (pad f) (ucs4 f) (underline_adjustment f)).

Definition reference_render (text color background : value)
  (f : FontObject (option (value * Z * Z)))
  : outcome (value * value) * FontObject (option (value * Z * Z)) :=
  match text with
  | VUnicode _ | VBytes _ =>
      (Return (VObject 1 (Return true), VObject 2 (Return true)), f)
  | _ => (Raise (TypeError "Expected a Unicode or LATIN1 (bytes) string"), f)
  end.

Definition reference_metric (scale : Z)
  (f : FontObject (option (value * Z * Z))) : outcome Z :=
  match handle f with
  | Some (_, size, _) => Return (scale * size)
  | None => Raise (Exception "RuntimeError" "font is not initialized")
  end.

Definition reference_engine (resolution : Z) : Freetype := {|
  Handle := option (value * Z * Z);
  str_is_unicode := true;
  encode_file_path := encode_ascii;
  default_font := Some (list_byte_of_string "freesansbold.ttf");
  get_default_resolution := resolution;
  ft_new := MkFont None VNone VNone VNone VNone VNone VNone VNone VNone
                   VNone VNone;
  ft_init := reference_init;
  ft_render := reference_render;
  ft_get_sized_ascender := reference_metric 1;
  ft_get_sized_descender := reference_metric (-1);
  sysfont_resolve := fun _ size bold italic => (VNone, size, bold, italic)
|}.

(** An instance built by the reference engine, and a state to run its
    methods in. *)
Definition sample_font : FontObject (option (value * Z * Z)) :=
  MkFont (Some (VNone, 12, 49)) (VBool true) (VBool false) (VBool false)
         (VBool false) (VFloat 6004799503160661 (-56)) (VBool false)
         (VBool true) (VBool true) (VBool true) (VFloat 1 0).

Definition sample_world : World (option (value * Z * Z)) :=
  MkWorld sample_font [].

(** A Unicode literal of ASCII characters, as code points. *)
Definition unicode_of_string (s : string) : unicode_ :=
  map Byte.to_N (list_byte_of_string s).

(** The path [font<NUL>.ttf], which no encoder of file paths accepts. *)
Definition unencodable_path : unicode_ :=
  unicode_of_string "font" ++ [0%N] ++ unicode_of_string ".ttf".

(** [isinstance(v, bool)]. *)
Definition is_bool (v : value) : bool :=
  match v with VBool _ => true | _ => false end.

(** The text holds a null code point, or a raw null byte. *)
Definition has_null (text : value) : Prop :=
  match text with
  | VUnicode s => In 0%N s
  | VBytes b => In x00 b
  | _ => False
  end.

(** The sources that select the built-in default font: [None], or a path
    that is, once encoded, the default-font identity [__default_font]. *)
Definition default_marker {FT : Freetype} (file : value) : Prop :=
  file = VNone \/
  (exists b, file = VBytes b /\ default_font = Some b) \/
  (exists s b, file = VUnicode s /\ encode_file_path s = Some b /\
               default_font = Some b).

(** The text [render] works on: the empty string literal for [None]. *)
Definition text_or_empty {FT : Freetype} (text : value) : value :=
  if is_None text then empty_str else text.

(** The attributes [__init__] assigns after the engine's constructor. *)
Definition has_policy_attributes (H : Type) (f : FontObject H) : Prop :=
  strength f = VFloat 6004799503160661 (-56) /\
  kerning f = VBool false /\
  origin f = VBool true /\
  pad f = VBool true /\
  ucs4 f = VBool true /\
  underline_adjustment f = VFloat 1 0.

(** The sources for which [__init__] takes the default-font branch: the
    default-font markers and, where the plain string literal is a byte
    string and the default-font identity is the empty byte string, the
    Unicode paths that cannot be encoded. *)
Definition selects_default_font {FT : Freetype} (file : value) : Prop :=
  default_marker file \/
  (exists s, file = VUnicode s /\ encode_file_path s = None /\
             str_is_unicode = false /\ default_font = Some []).

(** * Properties *)

(** ** Containment of a one-element sequence *)

Section ContainmentFacts.
Variable A : Type.
Variable eqb : A -> A -> bool.
Hypothesis eqb_refl : forall a, eqb a a = true.

Lemma contains_singleton (c : A) (s : list A) :
  In c s -> contains eqb [c] s = true.
Proof.
  induction s as [|a s IH]; intros Hin; [destruct Hin|].
  destruct Hin as [->|Hin]; simpl.
  - rewrite eqb_refl. reflexivity.
  - rewrite (IH Hin). apply orb_true_r.
Qed.

End ContainmentFacts.

Lemma unicode_contains_null (s : unicode_) :
  In 0%N s -> unicode_contains [0%N] s = true.
Proof. apply contains_singleton, N.eqb_refl. Qed.

Lemma bytes_contains_null (b : bytes_) :
  In x00 b -> bytes_contains [x00] b = true.
Proof.
  apply contains_singleton. intros a. apply Byte.byte_dec_lb. reflexivity.
Qed.

(** ** render *)

Ltac run_method :=
  unfold bind, ret, raise, lift, try_finally, getattr, setattr,
         super_render, super_init; simpl.

Section RenderFacts.
Context {FT : Freetype}.

(** What a call of [render] amounts to, step by step. *)
Lemma render_unfold (text antialias color background : value)
      (w : World Handle) :
  render text antialias color background w =
  let text' := if is_None text then empty_str else text in
  if match text' with
     | VUnicode s => unicode_contains __unull s
     | _ => false
     end
     || match text' with
        | VBytes b => bytes_contains __bnull b
        | _ => false
        end
  then (Raise (ValueError "A null character was found in the text"), w)
  else
    match py_bool antialias with
    | Raise e => (Raise e, w)
    | Return aa =>
        let seen := with_antialiased (VBool aa) (self w) in
        let (r, f) := ft_render text' color background seen in
        (match r with
         | Return sr => Return (fst sr)
         | Raise e => Raise e
         end,
         MkWorld (with_antialiased (antialiased (self w)) f)
                 (log w ++ [ERender seen text' color background]))
    end.
Proof.
  unfold render. cbv zeta.
  set (text' := if is_None text then empty_str else text).
  destruct (match text' with
            | VUnicode s => unicode_contains __unull s
            | _ => false
            end); [reflexivity|].
  destruct (match text' with
            | VBytes b => bytes_contains __bnull b
            | _ => false
            end); [reflexivity|].
  run_method.
  destruct (py_bool antialias) as [aa|e]; [|reflexivity].
  simpl.
  destruct (ft_render text' color background
                      (with_antialiased (VBool aa) (self w))) as [[sr|e] f];
    reflexivity.
Qed.

(** C1.  A text that contains a null code point (a Unicode string) or a
    raw null byte (a byte string) makes [render] raise [ValueError]; the
    state it returns is the state it was given, so the instance is
    untouched and no call is added to the log of delegated calls: the
    engine's render primitive is not reached. *)
Theorem render_rejects_null_text
        (text antialias color background : value) (w : World Handle) :
  has_null text ->
  render text antialias color background w =
  (Raise (ValueError "A null character was found in the text"), w).
Proof.
  intros Hnull. unfold render.
  destruct text as [ | | | | s | b | ]; simpl in Hnull; try contradiction;
    simpl.
  - unfold __unull. rewrite (unicode_contains_null s Hnull). reflexivity.
  - unfold __bnull. rewrite (bytes_contains_null b Hnull). reflexivity.
Qed.

(** C4.  Whatever the arguments and whichever way [render] leaves
    (normal return, the null-character check, a failing truth test of
    [antialias], an exception of the engine's render), the stored
    [antialiased] flag after the call is the one from before the call. *)
Theorem render_restores_antialiased
        (text antialias color background : value) (w : World Handle) :
  antialiased (self (snd (render text antialias color background w))) =
  antialiased (self w).
Proof.
  rewrite render_unfold. cbv zeta.
  destruct (_ || _); [reflexivity|].
  destruct (py_bool antialias) as [aa|e]; [|reflexivity].
  destruct (ft_render _ color background _) as [r f].
  reflexivity.
Qed.

(** C8.  [render(None, ...)] is [render] of the empty string literal:
    the same answer and the same final state (instance and log), for all
    other arguments and every state. *)
Theorem render_None_is_render_empty
        (antialias color background : value) (w : World Handle) :
  render VNone antialias color background w =
  render empty_str antialias color background w.
Proof.
  unfold render.
  replace (is_None empty_str) with false
    by (unfold empty_str; destruct str_is_unicode; reflexivity).
  reflexivity.
Qed.

End RenderFacts.

Lemma render_rejects_null_text_witness :
  has_null (VUnicode [97; 0; 98]%N) /\
  render (FT := reference_engine 72) (VUnicode [97; 0; 98]%N) (VBool true)
         (VObject 7 (Return true)) VNone sample_world =
  (Raise (ValueError "A null character was found in the text"), sample_world).
Proof.
  split.
  - simpl. right. left. reflexivity.
  - apply (render_rejects_null_text (FT := reference_engine 72)).
    simpl. right. left. reflexivity.
Defined.

(** ** Style flags and metrics *)

Section StyleFacts.
Context {FT : Freetype}.

(** A setter either stores the truth value of its argument, as a
    boolean, in its own attribute and nothing else, or it raises (the
    truth test failed) and changes nothing. *)
Lemma setter_unfold (upd : value -> FontObject Handle -> FontObject Handle)
      (v : value) (w : World Handle) :
  (b <- lift (py_bool v) ;; setattr upd (VBool b)) w =
  match py_bool v with
  | Return b => (Return tt, MkWorld (upd (VBool b) (self w)) (log w))
  | Raise e => (Raise e, w)
  end.
Proof.
  run_method. destruct (py_bool v); reflexivity.
Qed.

(** C7.  [set_bold(True)] followed by [get_bold()] answers [True], and
    likewise for italic and underline; the same holds of [False].  Bold
    is the engine flag [wide], italic is [oblique], underline is
    [underline]: for a boolean the setter returns and stores it into that
    flag and nothing else, and the getter reads the flag back.  For every
    argument value, boolean or not, a setter leaves the two other style
    flags, [antialiased] and the log of delegated calls as they were. *)
Theorem style_flags_roundtrip (w : World Handle) :
  (forall b : bool,
     set_bold (VBool b) w
     = (Return tt, MkWorld (with_wide (VBool b) (self w)) (log w)) /\
     get_bold (snd (set_bold (VBool b) w))
     = (Return (VBool b), snd (set_bold (VBool b) w)) /\
     wide (self (snd (set_bold (VBool b) w))) = VBool b) /\
  (forall b : bool,
     set_italic (VBool b) w
     = (Return tt, MkWorld (with_oblique (VBool b) (self w)) (log w)) /\
     get_italic (snd (set_italic (VBool b) w))
     = (Return (VBool b), snd (set_italic (VBool b) w)) /\
     oblique (self (snd (set_italic (VBool b) w))) = VBool b) /\
  (forall b : bool,
     set_underline (VBool b) w
     = (Return tt, MkWorld (with_underline (VBool b) (self w)) (log w)) /\
     get_underline (snd (set_underline (VBool b) w))
     = (Return (VBool b), snd (set_underline (VBool b) w)) /\
     underline (self (snd (set_underline (VBool b) w))) = VBool b) /\
  (forall v : value,
     oblique (self (snd (set_bold v w))) = oblique (self w) /\
     underline (self (snd (set_bold v w))) = underline (self w) /\
     antialiased (self (snd (set_bold v w))) = antialiased (self w) /\
     log (snd (set_bold v w)) = log w) /\
  (forall v : value,
     wide (self (snd (set_italic v w))) = wide (self w) /\
     underline (self (snd (set_italic v w))) = underline (self w) /\
     antialiased (self (snd (set_italic v w))) = antialiased (self w) /\
     log (snd (set_italic v w)) = log w) /\
  (forall v : value,
     wide (self (snd (set_underline v w))) = wide (self w) /\
     oblique (self (snd (set_underline v w))) = oblique (self w) /\
     antialiased (self (snd (set_underline v w))) = antialiased (self w) /\
     log (snd (set_underline v w)) = log w) /\
  get_bold w = (Return (wide (self w)), w) /\
  get_italic w = (Return (oblique (self w)), w) /\
  get_underline w = (Return (underline (self w)), w).
Proof.
  unfold set_bold, set_italic, set_underline, get_bold, get_italic,
         get_underline.
  repeat match goal with |- _ /\ _ => split end;
    try reflexivity;
    intros v; rewrite ?setter_unfold;
    try (destruct (py_bool v)); simpl; repeat split.
Qed.

(** C6.  [get_ascent] and [get_descent] answer the engine's sized
    ascender and sized descender as they are, and [get_height] is
    [get_ascent() - get_descent() + 1] evaluated in the same state: the
    same number when both queries answer, the same exception when one of
    them raises. *)
Theorem get_height_is_ascent_minus_descent_plus_1 (w : World Handle) :
  get_ascent w = (ft_get_sized_ascender (self w), w) /\
  get_descent w = (ft_get_sized_descender (self w), w) /\
  get_height w =
    (a <- get_ascent ;; d <- get_descent ;; ret (a - d + 1)) w /\
  (forall a d : Z,
     fst (get_ascent w) = Return a ->
     fst (get_descent w) = Return d ->
     get_height w = (Return (a - d + 1), w)).
Proof.
  unfold get_height, get_ascent, get_descent, get_sized_ascender,
         get_sized_descender.
  repeat split.
  intros a d. run_method. intros -> ->. reflexivity.
Qed.

End StyleFacts.

(** ** Construction *)

Lemma bytes_eqb_eq (b d : bytes_) : bytes_eqb b d = true <-> b = d.
Proof.
  unfold bytes_eqb. revert d.
  induction b as [|x b IH]; intros [|y d]; simpl; split;
    try congruence; try reflexivity.
  - intros H. apply andb_true_iff in H as [Hx Hb].
    apply Byte.byte_dec_bl in Hx. apply IH in Hb. congruence.
  - intros H. injection H as -> ->. apply andb_true_iff. split.
    + apply Byte.byte_dec_lb. reflexivity.
    + apply IH. reflexivity.
Qed.

(** [int(r * 0.6875)] is [floor(0.6875 * r)] for a resolution [r >= 0];
    it is 0 exactly for the resolutions 0 and 1. *)
Lemma int_times_0_6875_floor (r : Z) :
  0 <= r -> int_times_0_6875 r = 11 * r / 16.
Proof.
  intros Hr. unfold int_times_0_6875. apply Z.quot_div_nonneg; lia.
Qed.

Lemma int_times_0_6875_zero (r : Z) :
  0 <= r -> (int_times_0_6875 r = 0 <-> r <= 1).
Proof.
  intros Hr. rewrite int_times_0_6875_floor by exact Hr. split; intros H.
  - destruct (Z.le_gt_cases r 1) as [|Hgt]; [assumption|].
    assert (1 <= 11 * r / 16) by (apply Z.div_le_lower_bound; lia). lia.
  - apply Z.div_small. lia.
Qed.

Section InitFacts.
Context {FT : Freetype}.

(** The policy assignments that follow the engine's constructor do not
    delegate: the log ends with the constructor call. *)
Lemma init_tail_log (file : value) (size resolution : Z) (w : World Handle) :
  log (snd ((super_init file size resolution ;;;
             setattr (@with_strength _) (VFloat 6004799503160661 (-56)) ;;;
             setattr (@with_kerning _) (VBool false) ;;;
             setattr (@with_origin _) (VBool true) ;;;
             setattr (@with_pad _) (VBool true) ;;;
             setattr (@with_ucs4 _) (VBool true) ;;;
             setattr (@with_underline_adjustment _) (VFloat 1 0)) w))
  = log w ++ [EInit file size resolution].
Proof.
  run_method.
  destruct (ft_init file size resolution (self w)) as [[[]|e] f];
    reflexivity.
Qed.

(** An exception can only come from the engine's constructor there. *)
Lemma init_tail_outcome (file : value) (size resolution : Z)
      (w : World Handle) :
  fst ((super_init file size resolution ;;;
        setattr (@with_strength _) (VFloat 6004799503160661 (-56)) ;;;
        setattr (@with_kerning _) (VBool false) ;;;
        setattr (@with_origin _) (VBool true) ;;;
        setattr (@with_pad _) (VBool true) ;;;
        setattr (@with_ucs4 _) (VBool true) ;;;
        setattr (@with_underline_adjustment _) (VFloat 1 0)) w)
  = fst (ft_init file size resolution (self w)).
Proof.
  run_method.
  destruct (ft_init file size resolution (self w)) as [[[]|e] f];
    reflexivity.
Qed.

Ltac refute_selection Hdef :=
  let H := fresh "H" in
  let Hb := fresh "Hb" in
  let Hs := fresh "Hs" in
  let Hstr := fresh "Hstr" in
  intros [[H|[(? & H & Hb)|(? & ? & H & Hs & Hb)]]|(? & H & Hs & Hstr & Hb)];
  try discriminate H; injection H as <-;
  try apply Hdef in Hb; congruence.

(** Lines 32 to 40 of [__init__] settle on the file: [None] for the
    sources that select the default font, the argument for all others,
    which then get the resolution override 0. *)
Lemma init_settles_file (file : value) (size : Z) (w : World Handle) :
  (selects_default_font file /\
   __init__ file size w = __init__ VNone size w) \/
  (~ selects_default_font file /\
   __init__ file size w =
   (super_init file (if size <=? 1 then 1 else size) 0 ;;;
    setattr (@with_strength _) (VFloat 6004799503160661 (-56)) ;;;
    setattr (@with_kerning _) (VBool false) ;;;
    setattr (@with_origin _) (VBool true) ;;;
    setattr (@with_pad _) (VBool true) ;;;
    setattr (@with_ucs4 _) (VBool true) ;;;
    setattr (@with_underline_adjustment _) (VFloat 1 0)) w).
Proof.
  assert (Hdef : forall b, is_default_font b = true <-> default_font = Some b).
  { intros b. unfold is_default_font.
    destruct default_font as [d|]; split; intros H; try discriminate.
    - apply bytes_eqb_eq in H. congruence.
    - injection H as ->. apply bytes_eqb_eq. reflexivity. }
  destruct file as [ | x | z | m e | s | b | id truth ].
  - left. split; [left; left; reflexivity | reflexivity].
  - right. split; [refute_selection Hdef | reflexivity].
  - right. split; [refute_selection Hdef | reflexivity].
  - right. split; [refute_selection Hdef | reflexivity].
  - unfold __init__. cbv zeta.
    destruct (encode_file_path s) as [b|] eqn:Hs.
    + destruct (is_default_font b) eqn:Hb.
      * left. split; [|reflexivity].
        left. right. right. exists s, b. apply Hdef in Hb. auto.
      * right. split; [refute_selection Hdef | reflexivity].
    + unfold empty_str. destruct str_is_unicode eqn:Hstr.
      * right. split; [refute_selection Hdef | reflexivity].
      * destruct (is_default_font []) eqn:Hb.
        -- left. split; [|reflexivity].
           right. exists s. apply Hdef in Hb. auto.
        -- right. split; [refute_selection Hdef | reflexivity].
  - unfold __init__. cbv zeta.
    destruct (is_default_font b) eqn:Hb.
    + left. split; [|reflexivity].
      left. right. left. exists b. apply Hdef in Hb. auto.
    + right. split; [refute_selection Hdef | reflexivity].
  - right. split; [refute_selection Hdef | reflexivity].
Qed.

(** C5.  The constructor stops at the unbound name [kwds], before it
    reaches the engine, exactly when the source selects the default font
    and [int(0.6875 * default resolution)] is 0.  In every other case it
    delegates to the engine's constructor exactly once, and the size it
    forwards is exactly 1 when the size argument is at most 1 and the
    size argument itself when that is greater than 1. *)
Theorem init_clamps_size (file : value) (size : Z) (w : World Handle) :
  (selects_default_font file /\
   int_times_0_6875 get_default_resolution = 0 ->
   __init__ file size w = (Raise kwds_is_unbound, w)) /\
  (~ (selects_default_font file /\
      int_times_0_6875 get_default_resolution = 0) ->
   exists file' s resolution,
     log (snd (__init__ file size w)) = log w ++ [EInit file' s resolution] /\
     (size <= 1 -> s = 1) /\ (1 < size -> s = size)).
Proof.
  assert (Hs : (size <= 1 -> (if size <=? 1 then 1 else size) = 1) /\
               (1 < size -> (if size <=? 1 then 1 else size) = size)).
  { destruct (Z.leb_spec size 1); split; intros; lia. }
  destruct (init_settles_file file size w) as [[Hsel ->]|[Hother ->]].
  - unfold __init__. cbv zeta. simpl is_None. cbv iota.
    destruct (Z.eqb_spec (int_times_0_6875 get_default_resolution) 0)
      as [Hz|Hz].
    + split; [intros _; reflexivity|].
      intros H. exfalso. apply H. split; assumption.
    + split; [intros [_ H]; contradiction|].
      intros _. do 3 eexists. split; [|exact Hs].
      unfold bind at 1. unfold ret at 1. apply init_tail_log.
  - split; [intros [H _]; contradiction|].
    intros _. do 3 eexists. split; [|exact Hs]. apply init_tail_log.
Qed.

End InitFacts.

Section DefaultFontFacts.
Context {FT : Freetype}.

Lemma is_default_font_refl (b : bytes_) :
  default_font = Some b -> is_default_font b = true.
Proof.
  unfold is_default_font. intros ->. apply bytes_eqb_eq. reflexivity.
Qed.

(** Every default-font marker is handled as [None] is. *)
Lemma init_default_marker (file : value) (size : Z) (w : World Handle) :
  default_marker file -> __init__ file size w = __init__ VNone size w.
Proof.
  intros [-> | [(b & -> & Hb) | (s & b & -> & Hs & Hb)]].
  - reflexivity.
  - unfold __init__. cbv zeta. rewrite (is_default_font_refl Hb).
    reflexivity.
  - unfold __init__. cbv zeta. rewrite Hs, (is_default_font_refl Hb).
    reflexivity.
Qed.

(** With the default font and an engine resolution of at least 2, the
    engine is given [floor(0.6875 * resolution)], which is at least 1. *)
Lemma init_default_font_resolution (file : value) (size : Z)
      (w : World Handle) :
  default_marker file ->
  2 <= get_default_resolution ->
  log (snd (__init__ file size w)) =
  log w ++ [EInit VNone (if size <=? 1 then 1 else size)
                  (Z.max 1 (11 * get_default_resolution / 16))].
Proof.
  intros Hfile Hres. rewrite (init_default_marker size w Hfile).
  assert (Hfloor := int_times_0_6875_floor (r := get_default_resolution)).
  assert (Hzero := int_times_0_6875_zero (r := get_default_resolution)).
  assert (Hpos : 1 <= 11 * get_default_resolution / 16)
    by (apply Z.div_le_lower_bound; lia).
  unfold __init__. cbv zeta. simpl is_None. cbv iota.
  destruct (Z.eqb_spec (int_times_0_6875 get_default_resolution) 0)
    as [Heq|Hne].
  - apply Hzero in Heq; lia.
  - unfold bind at 1. unfold ret at 1.
    rewrite init_tail_log, Hfloor by lia.
    rewrite Z.max_r by lia. reflexivity.
Qed.

(** With the default font and an engine resolution of 0 or 1 the product
    truncates to 0, and the branch meant to raise it to 1 stops at the
    unbound name [kwds]: nothing is changed and nothing is delegated. *)
Lemma init_default_font_low_resolution (file : value) (size : Z)
      (w : World Handle) :
  default_marker file ->
  0 <= get_default_resolution <= 1 ->
  __init__ file size w = (Raise kwds_is_unbound, w).
Proof.
  intros Hfile Hres. rewrite (init_default_marker size w Hfile).
  unfold __init__. cbv zeta. simpl is_None. cbv iota.
  replace (int_times_0_6875 get_default_resolution =? 0) with true.
  - reflexivity.
  - symmetry. apply Z.eqb_eq. apply int_times_0_6875_zero; lia.
Qed.

(** A byte-string path other than the default-font identity, and any
    object that is neither [None] nor a string, goes to the engine as it
    is with the resolution override 0. *)
Lemma init_other_path_resolution (file : value) (size : Z)
      (w : World Handle) :
  match file with
  | VNone | VUnicode _ => False
  | VBytes b => default_font <> Some b
  | _ => True
  end ->
  log (snd (__init__ file size w)) =
  log w ++ [EInit file (if size <=? 1 then 1 else size) 0].
Proof.
  intros Hfile. unfold __init__. cbv zeta.
  destruct file as [ | | | | s | b | ]; try contradiction;
    try (unfold bind at 1; unfold ret at 1; apply init_tail_log).
  destruct (is_default_font b) eqn:Hd.
  - exfalso. apply Hfile. unfold is_default_font in Hd.
    destruct default_font as [d|]; [|discriminate].
    apply bytes_eqb_eq in Hd. congruence.
  - unfold bind at 1. unfold ret at 1. apply init_tail_log.
Qed.

(** A Unicode path that encodes to something other than the default-font
    identity goes to the engine as it is with the resolution override 0. *)
Lemma init_other_unicode_path_resolution (s : unicode_) (b : bytes_)
      (size : Z) (w : World Handle) :
  encode_file_path s = Some b ->
  default_font <> Some b ->
  log (snd (__init__ (VUnicode s) size w)) =
  log w ++ [EInit (VUnicode s) (if size <=? 1 then 1 else size) 0].
Proof.
  intros Hs Hb. unfold __init__. cbv zeta. rewrite Hs.
  destruct (is_default_font b) eqn:Hd.
  - exfalso. apply Hb. unfold is_default_font in Hd.
    destruct default_font as [d|]; [|discriminate].
    apply bytes_eqb_eq in Hd. congruence.
  - unfold bind at 1. unfold ret at 1. apply init_tail_log.
Qed.

(** C3, as the code has it.  When the encoding of a Unicode path fails
    (and the default-font identity is not the empty byte string), the
    error is caught and not propagated, and the path is handled as a path
    other than the default font: the constructor delegates once, with the
    original path and the resolution override 0, and its outcome is the
    outcome of the engine's constructor on that path. *)
Theorem init_unencodable_path_goes_to_engine (s : unicode_) (size : Z)
        (w : World Handle) :
  encode_file_path s = None ->
  default_font <> Some [] ->
  log (snd (__init__ (VUnicode s) size w)) =
    log w ++ [EInit (VUnicode s) (if size <=? 1 then 1 else size) 0] /\
  fst (__init__ (VUnicode s) size w) =
    fst (ft_init (VUnicode s) (if size <=? 1 then 1 else size) 0 (self w)).
Proof.
  intros Hs Hd. unfold __init__. cbv zeta. rewrite Hs.
  assert (Hfile : match empty_str with
                  | VBytes b => if is_default_font b then VNone
                                else VUnicode s
                  | _ => VUnicode s
                  end = VUnicode s).
  { unfold empty_str. destruct str_is_unicode; [reflexivity|].
    unfold is_default_font. revert Hd.
    destruct default_font as [[|x d]|]; intros Hd; try reflexivity.
    exfalso. apply Hd. reflexivity. }
  rewrite Hfile. simpl is_None. cbv iota.
  split; unfold bind at 1; unfold ret at 1;
    [apply init_tail_log | apply init_tail_outcome].
Qed.

End DefaultFontFacts.

(** ** SysFont *)

Section SysFontFacts.
Context {FT : Freetype}.

(** Without a constructor argument, [SysFont] hands the matcher its own
    arguments and the default constructor. *)
Lemma SysFont_forwards (name : value) (size : Z) (bold italic : value) :
  SysFont name size bold italic None =
  _SysFont name size bold italic default_constructor.
Proof. reflexivity. Qed.

(** A supplied constructor is forwarded as it is. *)
Lemma SysFont_forwards_given (name : value) (size : Z) (bold italic : value)
      (c : constructor_t) :
  SysFont name size bold italic (Some c) = _SysFont name size bold italic c.
Proof. reflexivity. Qed.

(** The default constructor builds [Font(fontpath, size)], then applies
    [set_bold(bold)] and [set_italic(italic)], and answers the font. *)
Lemma default_constructor_unfold (fontpath : value) (size : Z)
      (bold italic : value) (calls : list (call Handle)) :
  default_constructor fontpath size bold italic calls =
  match Font fontpath size calls with
  | (Raise e, calls') => (Raise e, calls')
  | (Return font, calls') =>
      match py_bool bold with
      | Raise e => (Raise e, calls')
      | Return b =>
          match py_bool italic with
          | Raise e => (Raise e, calls')
          | Return i =>
              (Return (with_oblique (VBool i) (with_wide (VBool b) font)),
               calls')
          end
      end
  end.
Proof.
  unfold default_constructor, bind at 1.
  destruct (Font fontpath size calls) as [[font|e] calls']; [|reflexivity].
  unfold bind at 1, invoke at 1, set_bold. rewrite setter_unfold.
  destruct (py_bool bold) as [b|e]; [|reflexivity]. simpl.
  unfold bind at 1, invoke at 1, set_italic. rewrite setter_unfold.
  destruct (py_bool italic) as [i|e]; reflexivity.
Qed.

(** When the matcher falls back on the built-in default font and the
    engine's default resolution is 0 or 1, the default constructor stops
    at the unbound name [kwds] of [Font.__init__], and so does
    [SysFont]. *)
Lemma SysFont_fallback_low_resolution (name : value) (size : Z)
      (bold italic : value) (calls : list (call Handle)) :
  default_marker (fst (fst (fst (sysfont_resolve name size bold italic)))) ->
  0 <= get_default_resolution <= 1 ->
  SysFont name size bold italic None calls = (Raise kwds_is_unbound, calls).
Proof.
  intros Hpath Hres. rewrite SysFont_forwards. unfold _SysFont.
  destruct (sysfont_resolve name size bold italic)
    as [[[fontpath size'] bold'] italic'].
  simpl in Hpath. rewrite default_constructor_unfold. unfold Font.
  rewrite (init_default_font_low_resolution size' _ Hpath Hres).
  reflexivity.
Qed.

End SysFontFacts.

(** ** The module on concrete inputs *)

(** C2.  With an engine default resolution of 1, constructing the default
    font should hand the engine the resolution
    [max(1, floor(0.6875 * 1)) = 1].  The product truncates to 0, the
    branch that handles 0 assigns to the unbound name [kwds], and the
    constructor raises [NameError] without delegating anything. *)
Theorem default_font_resolution_floor_unreached :
  get_default_resolution (Freetype := reference_engine 1) = 1 /\
  Z.max 1 (11 * 1 / 16) = 1 /\
  int_times_0_6875 1 = 0 /\
  Font (FT := reference_engine 1) VNone 12 [] =
  (Raise (NameError "name 'kwds' is not defined"), []).
Proof. repeat split. Qed.

(** With the usual resolution of 72 the default font is built with the
    resolution override 49, and a font file with the override 0. *)
Example default_font_resolution_72 :
  snd (Font (FT := reference_engine 72) VNone 12 []) = [EInit VNone 12 49] /\
  snd (Font (FT := reference_engine 72)
            (VBytes (list_byte_of_string "freesansbold.ttf")) 12 [])
  = [EInit VNone 12 49] /\
  snd (Font (FT := reference_engine 72)
            (VUnicode (unicode_of_string "DejaVuSans.ttf")) 12 [])
  = [EInit (VUnicode (unicode_of_string "DejaVuSans.ttf")) 12 0].
Proof. repeat split. Qed.

(** C3, as the claim states it, fails: the path [font<NUL>.ttf] cannot
    be encoded, and the constructor hands that very path to the engine
    with the resolution override 0, where a request for the default font
    hands it [None] with the override 49. *)
Lemma unencodable_path_is_not_default_font :
  encode_file_path (Freetype := reference_engine 72) unencodable_path
  = None /\
  snd (Font (FT := reference_engine 72) (VUnicode unencodable_path) 12 [])
  = [EInit (VUnicode unencodable_path) 12 0] /\
  snd (Font (FT := reference_engine 72) VNone 12 []) = [EInit VNone 12 49] /\
  ~ (forall (FT : Freetype) (s : unicode_) (size : Z) (w : World Handle),
       encode_file_path s = None ->
       __init__ (VUnicode s) size w = __init__ VNone size w).
Proof.
  repeat split.
  intros H.
  specialize (H (reference_engine 72) unencodable_path 12
                (MkWorld ft_new []) eq_refl).
  apply (f_equal (fun r => log (snd r))) in H.
  vm_compute in H. discriminate H.
Qed.

Lemma init_unencodable_path_goes_to_engine_witness :
  encode_file_path (Freetype := reference_engine 72) unencodable_path
  = None /\
  default_font (Freetype := reference_engine 72) <> Some [] /\
  log (snd (__init__ (FT := reference_engine 72) (VUnicode unencodable_path)
                     (-1) sample_world))
  = [] ++ [EInit (VUnicode unencodable_path) 1 0].
Proof.
  split; [reflexivity|]. split; [discriminate|].
  apply (init_unencodable_path_goes_to_engine
           (FT := reference_engine 72) unencodable_path (-1) sample_world);
    [reflexivity | discriminate].
Defined.

(** C9.  [SysFont("nonexistent-font-xyz", 12)] with a matcher that falls
    back on the built-in font, under an engine default resolution of 1:
    the default constructor calls [Font(None, 12)], which raises
    [NameError], and no font is returned. *)
Theorem SysFont_unknown_name_low_resolution :
  sysfont_resolve (Freetype := reference_engine 1)
    (VUnicode (unicode_of_string "nonexistent-font-xyz")) 12
    (VInt 0) (VInt 0) = (VNone, 12, VInt 0, VInt 0) /\
  SysFont (FT := reference_engine 1)
          (VUnicode (unicode_of_string "nonexistent-font-xyz")) 12
          (VInt 0) (VInt 0) None []
  = (Raise (NameError "name 'kwds' is not defined"), []).
Proof. split; reflexivity. Qed.

(** Under the usual resolution of 72 the same request answers a font,
    with the requested styles applied as booleans. *)
Example SysFont_unknown_name_72 :
  exists font,
    SysFont (FT := reference_engine 72)
            (VUnicode (unicode_of_string "nonexistent-font-xyz")) 12
            (VInt 1) (VInt 0) None []
    = (Return font, [EInit VNone 12 49]) /\
    wide font = VBool true /\ oblique font = VBool false.
Proof. eexists. repeat split. Qed.

(** A text without a null character is rendered by the engine, which sees
    the coerced [antialias]; the flag is then put back. *)
Example render_clean_text :
  render (FT := reference_engine 72) (VUnicode (unicode_of_string "ab"))
         (VInt 0) (VObject 7 (Return true)) VNone sample_world
  = (Return (VObject 1 (Return true)),
     MkWorld sample_font
             [ERender (with_antialiased (VBool false) sample_font)
                      (VUnicode (unicode_of_string "ab"))
                      (VObject 7 (Return true)) VNone]).
Proof. reflexivity. Qed.

(** A text of another type is left to the engine, whose exception
    propagates after the flag has been put back. *)
Example render_engine_raises :
  render (FT := reference_engine 72) (VInt 5) (VBool false)
         (VObject 7 (Return true)) VNone sample_world
  = (Raise (TypeError "Expected a Unicode or LATIN1 (bytes) string"),
     MkWorld sample_font
             [ERender (with_antialiased (VBool false) sample_font)
                      (VInt 5) (VObject 7 (Return true)) VNone]).
Proof. reflexivity. Qed.

(** A raw null byte is rejected as well. *)
Example render_null_byte :
  render (FT := reference_engine 72) (VBytes [x61; x00]) (VBool true)
         (VObject 7 (Return true)) VNone sample_world
  = (Raise (ValueError "A null character was found in the text"),
     sample_world).
Proof. reflexivity. Qed.

Example get_height_sample :
  get_ascent (FT := reference_engine 72) sample_world
  = (Return 12, sample_world) /\
  get_descent (FT := reference_engine 72) sample_world
  = (Return (-12), sample_world) /\
  get_height (FT := reference_engine 72) sample_world
  = (Return 25, sample_world).
Proof. repeat split. Qed.

Example set_bold_coerces :
  wide (self (snd (set_bold (FT := reference_engine 72)
                            (VUnicode (unicode_of_string "yes"))
                            sample_world))) = VBool true /\
  wide (self (snd (set_bold (FT := reference_engine 72) (VInt 0)
                            sample_world))) = VBool false.
Proof. split; reflexivity. Qed.

Example default_size_is_clamped :
  snd (Font (FT := reference_engine 72) VNone (-1) []) = [EInit VNone 1 49] /\
  snd (Font (FT := reference_engine 72) VNone 1 []) = [EInit VNone 1 49] /\
  snd (Font (FT := reference_engine 72) VNone 2 []) = [EInit VNone 2 49].
Proof. repeat split. Qed.

(** * Further properties *)

(** ** The null-character check is exact *)

Section ContainmentConverse.
Variable A : Type.
Variable eqb : A -> A -> bool.
Hypothesis eqb_eq : forall a b, eqb a b = true -> a = b.

Lemma contains_singleton_inv (c : A) (s : list A) :
  contains eqb [c] s = true -> In c s.
Proof.
  induction s as [|a s IH]; simpl; intros H; [discriminate|].
  apply orb_true_iff in H as [H|H].
  - apply andb_true_iff in H as [H _]. left. symmetry. apply eqb_eq, H.
  - right. apply IH, H.
Qed.

End ContainmentConverse.

Lemma unicode_contains_null_inv (s : unicode_) :
  unicode_contains [0%N] s = true -> In 0%N s.
Proof. apply contains_singleton_inv. intros a b. apply N.eqb_eq. Qed.

Lemma bytes_contains_null_inv (b : bytes_) :
  bytes_contains [x00] b = true -> In x00 b.
Proof. apply contains_singleton_inv. apply Byte.byte_dec_bl. Qed.

Section RenderMore.
Context {FT : Freetype}.

(** The two checks of [render] answer whether the text has a null. *)
Lemma null_checks_pass (text : value) :
  ~ has_null text ->
  match text_or_empty text with
  | VUnicode s => unicode_contains __unull s
  | _ => false
  end
  || match text_or_empty text with
     | VBytes b => bytes_contains __bnull b
     | _ => false
     end = false.
Proof.
  intros Hclean. unfold text_or_empty.
  destruct text as [ | | | | s | b | ]; simpl; try reflexivity.
  - unfold empty_str. destruct str_is_unicode; reflexivity.
  - destruct (unicode_contains __unull s) eqn:Hc; [|reflexivity].
    exfalso. apply Hclean. simpl. apply unicode_contains_null_inv, Hc.
  - destruct (bytes_contains __bnull b) eqn:Hc; [|reflexivity].
    exfalso. apply Hclean. simpl. apply bytes_contains_null_inv, Hc.
Qed.

Lemma null_checks_fail (text : value) :
  has_null text ->
  match text_or_empty text with
  | VUnicode s => unicode_contains __unull s
  | _ => false
  end
  || match text_or_empty text with
     | VBytes b => bytes_contains __bnull b
     | _ => false
     end = true.
Proof.
  intros Hnull. unfold text_or_empty.
  destruct text as [ | | | | s | b | ]; simpl in *; try contradiction.
  - unfold __unull. rewrite (unicode_contains_null s Hnull). reflexivity.
  - unfold __bnull. rewrite (bytes_contains_null b Hnull). reflexivity.
Qed.

Lemma has_null_dec (text : value) : {has_null text} + {~ has_null text}.
Proof.
  destruct text as [ | | | | s | b | ]; simpl; try (right; tauto).
  - apply (in_dec N.eq_dec).
  - apply (in_dec Byte.byte_eq_dec).
Qed.

(** X1.  A text without a null character is never rejected by [render]
    itself.  When the truth test of [antialias] answers, [render]
    delegates exactly once: the engine is given the text (the empty
    string literal for [None]), the colour and the background as they
    are, on the instance with [antialiased] set to that truth value; the
    answer of [render] is the engine's surface alone, and an exception of
    the engine is passed on as it is.  When the truth test raises, its
    exception is passed on and nothing has happened. *)
Theorem render_accepts_text_without_null
        (text antialias color background : value) (w : World Handle) :
  ~ has_null text ->
  match py_bool antialias with
  | Return aa =>
      let seen := with_antialiased (VBool aa) (self w) in
      let engine :=
        ft_render (text_or_empty text) color background seen in
      log (snd (render text antialias color background w)) =
        log w ++ [ERender seen (text_or_empty text) color background] /\
      fst (render text antialias color background w) =
        match fst engine with
        | Return sr => Return (fst sr)
        | Raise e => Raise e
        end
  | Raise e =>
      render text antialias color background w = (Raise e, w)
  end.
Proof.
  intros Hclean. rewrite render_unfold. cbv zeta.
  fold (text_or_empty text). rewrite (null_checks_pass text Hclean).
  destruct (py_bool antialias) as [aa|e]; [|reflexivity].
  destruct (ft_render (text_or_empty text) color background
                      (with_antialiased (VBool aa) (self w))) as [r f].
  split; reflexivity.
Qed.

(** X2.  [render] reaches the engine exactly when the text has no null
    character and the truth test of [antialias] answers; in every other
    case the log of delegated calls is the one from before. *)
Theorem render_delegates_iff
        (text antialias color background : value) (w : World Handle) :
  log (snd (render text antialias color background w)) <> log w <->
  (~ has_null text /\ exists aa, py_bool antialias = Return aa).
Proof.
  rewrite render_unfold. cbv zeta. fold (text_or_empty text).
  destruct (has_null_dec text) as [Hnull|Hclean].
  - rewrite (null_checks_fail text Hnull). simpl. split.
    + intros H. exfalso. apply H. reflexivity.
    + intros [H _]. contradiction.
  - rewrite (null_checks_pass text Hclean).
    destruct (py_bool antialias) as [aa|e].
    + destruct (ft_render (text_or_empty text) color background
                          (with_antialiased (VBool aa) (self w))) as [r f].
      simpl. split.
      * intros _. split; [exact Hclean|]. exists aa. reflexivity.
      * intros _ H. apply (f_equal (@List.length _)) in H.
        rewrite length_app in H. simpl in H. lia.
    + simpl. split.
      * intros H. exfalso. apply H. reflexivity.
      * intros [_ [aa H]]. discriminate H.
Qed.

(** X3.  When the engine's render primitive leaves the instance as it is,
    so does [render]: not only [antialiased] but every attribute and the
    engine's handle are the same after the call as before, whether the
    call returns or raises. *)
Theorem render_leaves_instance_unchanged
        (text antialias color background : value) (w : World Handle) :
  (forall t c g f, snd (ft_render t c g f) = f) ->
  self (snd (render text antialias color background w)) = self w.
Proof.
  intros Hframe. rewrite render_unfold. cbv zeta.
  destruct (_ || _); [reflexivity|].
  destruct (py_bool antialias) as [aa|e]; [|reflexivity].
  specialize (Hframe (if is_None text then empty_str else text)
                     color background
                     (with_antialiased (VBool aa) (self w))).
  destruct (ft_render _ color background _) as [r f].
  simpl in Hframe. subst f. simpl. destruct (self w). reflexivity.
Qed.

End RenderMore.

Lemma render_accepts_text_without_null_witness :
  ~ has_null (VUnicode [97; 98]%N) /\
  log (snd (render (FT := reference_engine 72) (VUnicode [97; 98]%N)
                   (VInt 1) (VObject 7 (Return true)) VNone sample_world))
  = [] ++ [ERender (with_antialiased (VBool true) sample_font)
                   (VUnicode [97; 98]%N) (VObject 7 (Return true)) VNone].
Proof.
  assert (Hclean : ~ has_null (VUnicode [97; 98]%N)).
  { simpl. intros [H|[H|[]]]; discriminate H. }
  split; [exact Hclean|].
  exact (proj1 (render_accepts_text_without_null
                  (FT := reference_engine 72) (VUnicode [97; 98]%N)
                  (VInt 1) (VObject 7 (Return true)) VNone sample_world
                  Hclean)).
Defined.

Lemma reference_render_frame (t c g : value)
      (f : FontObject (option (value * Z * Z))) :
  snd (reference_render t c g f) = f.
Proof. destruct t; reflexivity. Qed.

Lemma render_leaves_instance_unchanged_witness :
  (forall t c g f,
     snd (ft_render (Freetype := reference_engine 72) t c g f) = f) /\
  self (snd (render (FT := reference_engine 72) (VUnicode [97; 98]%N)
                    (VInt 0) (VObject 7 (Return true)) VNone sample_world))
  = sample_font.
Proof.
  split; [exact reference_render_frame|].
  apply (render_leaves_instance_unchanged (FT := reference_engine 72)).
  exact reference_render_frame.
Defined.

(** ** What construction hands to the engine, and what it leaves *)

Section InitMore.
Context {FT : Freetype}.

(** The run of [__init__] from the engine's constructor on. *)
Lemma init_tail_run (file : value) (size resolution : Z) (w : World Handle) :
  (super_init file size resolution ;;;
   setattr (@with_strength _) (VFloat 6004799503160661 (-56)) ;;;
   setattr (@with_kerning _) (VBool false) ;;;
   setattr (@with_origin _) (VBool true) ;;;
   setattr (@with_pad _) (VBool true) ;;;
   setattr (@with_ucs4 _) (VBool true) ;;;
   setattr (@with_underline_adjustment _) (VFloat 1 0)) w
  = match ft_init file size resolution (self w) with
    | (Return _, obj) =>
        (Return tt,
         MkWorld
           (with_underline_adjustment (VFloat 1 0)
              (with_ucs4 (VBool true)
                 (with_pad (VBool true)
                    (with_origin (VBool true)
                       (with_kerning (VBool false)
                          (with_strength (VFloat 6004799503160661 (-56))
                                         obj))))))
           (log w ++ [EInit file size resolution]))
    | (Raise e, obj) =>
        (Raise e, MkWorld obj (log w ++ [EInit file size resolution]))
    end.
Proof.
  run_method.
  destruct (ft_init file size resolution (self w)) as [[[]|e] obj];
    reflexivity.
Qed.

(** [__init__] either stops at the unbound name, or is the run from the
    engine's constructor on, for the file, size and resolution it has
    settled on. *)
Lemma init_run_cases (file : value) (size : Z) (w : World Handle) :
  __init__ file size w = (Raise kwds_is_unbound, w) \/
  exists f r,
    (f = VNone \/ f = file) /\
    (f = VNone -> r = int_times_0_6875 get_default_resolution /\ r <> 0) /\
    (f <> VNone -> r = 0) /\
    __init__ file size w =
    (super_init f (if size <=? 1 then 1 else size) r ;;;
     setattr (@with_strength _) (VFloat 6004799503160661 (-56)) ;;;
     setattr (@with_kerning _) (VBool false) ;;;
     setattr (@with_origin _) (VBool true) ;;;
     setattr (@with_pad _) (VBool true) ;;;
     setattr (@with_ucs4 _) (VBool true) ;;;
     setattr (@with_underline_adjustment _) (VFloat 1 0)) w.
Proof.
  unfold __init__. cbv zeta.
  match goal with
  | |- context [is_None ?f] =>
      assert (Hf : f = VNone \/ f = file);
      [|set (file' := f) in *; clearbody file']
  end.
  { destruct file as [ | | | | s | b | ]; auto.
    - destruct (encode_file_path s) as [b|]; [destruct (is_default_font b)|];
        auto.
      unfold empty_str. destruct str_is_unicode; auto.
      destruct (is_default_font []); auto.
    - destruct (is_default_font b); auto. }
  destruct (is_None file') eqn:Hnone.
  - assert (file' = VNone) by (destruct file'; try discriminate; reflexivity).
    subst file'.
    destruct (Z.eqb_spec (int_times_0_6875 get_default_resolution) 0)
      as [Hz|Hz].
    + left. reflexivity.
    + right. exists VNone, (int_times_0_6875 get_default_resolution).
      split; [left; reflexivity|].
      split; [intros _; split; [reflexivity|exact Hz]|].
      split; [intros H; contradiction|reflexivity].
  - right. exists file', 0.
    assert (Hne : file' <> VNone) by (intros ->; discriminate Hnone).
    split; [exact Hf|].
    split; [intros H; contradiction|].
    split; [intros _; reflexivity|reflexivity].
Qed.

(** X4.  What [__init__] leaves behind.  When it returns, the engine's
    constructor has returned, the six policy attributes hold their fixed
    values (strength 1/12 as a double, no kerning, origin, pad and ucs4
    on, underline adjustment 1.0), and the handle, [antialiased] and the
    style flags are as the engine's constructor left them.  When it
    raises, either it stopped at the unbound name [kwds] with nothing
    changed, or the exception is the one of the engine's constructor and
    the instance is as that constructor left it: no policy attribute has
    been assigned. *)
Theorem init_outcome (file : value) (size : Z) (w : World Handle) :
  match __init__ file size w with
  | (Return _, w') =>
      has_policy_attributes (self w') /\
      exists f s r obj,
        ft_init f s r (self w) = (Return tt, obj) /\
        handle (self w') = handle obj /\
        antialiased (self w') = antialiased obj /\
        wide (self w') = wide obj /\
        oblique (self w') = oblique obj /\
        underline (self w') = underline obj
  | (Raise e, w') =>
      (e = kwds_is_unbound /\ w' = w) \/
      exists f s r, ft_init f s r (self w) = (Raise e, self w')
  end.
Proof.
  destruct (init_run_cases file size w)
    as [-> | (f & r & _ & _ & _ & ->)].
  - left. split; reflexivity.
  - rewrite init_tail_run.
    destruct (ft_init f (if size <=? 1 then 1 else size) r (self w))
      as [[[]|e] obj] eqn:Hengine.
    + split; [repeat split|].
      exists f, (if size <=? 1 then 1 else size), r, obj.
      repeat split. exact Hengine.
    + right. exists f, (if size <=? 1 then 1 else size), r. exact Hengine.
Qed.

(** X5.  What the engine's constructor is handed.  The size is at least
    1.  The file is [None] or the very argument of the caller: the encoded
    form of a Unicode path is used for the comparison only and is never
    passed on.  The resolution override is non-zero exactly when the file
    is [None], and is then [int(0.6875 * default resolution)]; with any
    other file it is 0. *)
Theorem init_forwarded_arguments (file : value) (size : Z)
        (w : World Handle) (f : value) (s r : Z) :
  log (snd (__init__ file size w)) = log w ++ [EInit f s r] ->
  1 <= s /\
  (f = VNone \/ f = file) /\
  (f = VNone -> r = int_times_0_6875 get_default_resolution /\ r <> 0) /\
  (f <> VNone -> r = 0).
Proof.
  destruct (init_run_cases file size w)
    as [-> | (f' & r' & Hfile & Hnone & Hother & ->)]; intros Hlog.
  - simpl in Hlog. apply (f_equal (@List.length _)) in Hlog.
    rewrite length_app in Hlog. simpl in Hlog. lia.
  - rewrite init_tail_log in Hlog. apply app_inv_head in Hlog.
    injection Hlog as <- <- <-.
    split; [destruct (Z.leb_spec size 1); lia|].
    split; [exact Hfile|]. split; [exact Hnone|exact Hother].
Qed.

(** X6.  A path that names the default font is the same request as
    [None]: a byte string equal to the default-font identity, or a Unicode
    string that encodes to it, gives the same outcome, the same instance
    and the same delegated call as [Font(None, size)]. *)
Theorem Font_default_path_is_None (file : value) (size : Z)
        (calls : list (call Handle)) :
  default_marker file -> Font file size calls = Font VNone size calls.
Proof.
  intros Hfile. unfold Font.
  rewrite (init_default_marker size (MkWorld ft_new calls) Hfile).
  reflexivity.
Qed.

(** A font that [Font] answers carries the policy attributes. *)
Lemma Font_returns_policy (file : value) (size : Z)
      (calls calls' : list (call Handle)) (font : FontObject Handle) :
  Font file size calls = (Return font, calls') ->
  has_policy_attributes font.
Proof.
  unfold Font.
  destruct (init_run_cases file size (MkWorld ft_new calls))
    as [-> | (f & r & _ & _ & _ & ->)]; [discriminate|].
  rewrite init_tail_run. simpl self.
  destruct (ft_init f (if size <=? 1 then 1 else size) r ft_new)
    as [[[]|e] obj]; [|discriminate].
  intros H. injection H as <- _. repeat split.
Qed.

End InitMore.

Lemma init_forwarded_arguments_witness :
  log (snd (__init__ (FT := reference_engine 72)
                     (VUnicode (unicode_of_string "DejaVuSans.ttf")) 0
                     sample_world))
  = [] ++ [EInit (VUnicode (unicode_of_string "DejaVuSans.ttf")) 1 0] /\
  1 <= 1.
Proof.
  split; [reflexivity|].
  exact (proj1 (@init_forwarded_arguments
                  (reference_engine 72)
                  (VUnicode (unicode_of_string "DejaVuSans.ttf")) 0
                  sample_world
                  (VUnicode (unicode_of_string "DejaVuSans.ttf")) 1 0
                  eq_refl)).
Defined.

Lemma Font_default_path_is_None_witness :
  default_marker (FT := reference_engine 72)
                 (VBytes (list_byte_of_string "freesansbold.ttf")) /\
  Font (FT := reference_engine 72)
       (VBytes (list_byte_of_string "freesansbold.ttf")) 12 []
  = Font (FT := reference_engine 72) VNone 12 [].
Proof.
  assert (Hd : default_marker
                 (FT := reference_engine 72)
                 (VBytes (list_byte_of_string "freesansbold.ttf"))).
  { right. left. eexists. split; reflexivity. }
  split; [exact Hd|].
  exact (Font_default_path_is_None (FT := reference_engine 72) 12 [] Hd).
Defined.

(** ** How the style setters compose *)

Section SetterLaws.
Context {FT : Freetype}.

(** X7.  Setters of different style flags commute: when both truth tests
    answer, applying two of [set_bold], [set_italic] and [set_underline]
    in either order gives the same instance and the same log. *)
Theorem style_setters_commute (a b : value) (x y : bool)
        (w : World Handle) :
  py_bool a = Return x ->
  py_bool b = Return y ->
  (set_bold a ;;; set_italic b) w = (set_italic b ;;; set_bold a) w /\
  (set_bold a ;;; set_underline b) w = (set_underline b ;;; set_bold a) w /\
  (set_italic a ;;; set_underline b) w
  = (set_underline b ;;; set_italic a) w.
Proof.
  intros Ha Hb.
  unfold set_bold, set_italic, set_underline. run_method.
  rewrite ?Ha, ?Hb. simpl. rewrite ?Ha, ?Hb. repeat split.
Qed.

(** X8.  A setter depends on its argument through the truth value only,
    and the last call wins: when both truth tests answer, [set_bold(a)]
    followed by [set_bold(b)] is [set_bold] of the boolean [bool(b)], and
    likewise for italic and underline. *)
Theorem style_setter_last_wins (a b : value) (x y : bool)
        (w : World Handle) :
  py_bool a = Return x ->
  py_bool b = Return y ->
  (set_bold a ;;; set_bold b) w = set_bold (VBool y) w /\
  (set_italic a ;;; set_italic b) w = set_italic (VBool y) w /\
  (set_underline a ;;; set_underline b) w = set_underline (VBool y) w.
Proof.
  intros Ha Hb.
  unfold set_bold, set_italic, set_underline. run_method.
  rewrite ?Ha, ?Hb. simpl. rewrite ?Ha, ?Hb. repeat split.
Qed.

(** X12.  A style set through a setter is the style the engine renders
    with: after [set_bold(v)], a [render] of a text without a null
    character delegates on an instance whose [wide] flag is the boolean
    [bool(v)] and whose [antialiased] flag is the boolean
    [bool(antialias)], the other attributes being those from before. *)
Theorem render_sees_style_flags
        (v text antialias color background : value) (x aa : bool)
        (w : World Handle) :
  py_bool v = Return x ->
  ~ has_null text ->
  py_bool antialias = Return aa ->
  log (snd ((set_bold v ;;; render text antialias color background) w)) =
  log w ++ [ERender (with_antialiased (VBool aa)
                       (with_wide (VBool x) (self w)))
                    (text_or_empty text) color background].
Proof.
  intros Hv Hclean Haa.
  unfold bind at 1. unfold set_bold. rewrite setter_unfold, Hv.
  rewrite render_unfold. cbv zeta. fold (text_or_empty text).
  rewrite (null_checks_pass text Hclean), Haa.
  destruct (ft_render _ color background _) as [r f]. reflexivity.
Qed.

End SetterLaws.

Lemma style_setters_commute_witness :
  py_bool (VInt 3) = Return true /\
  py_bool (VUnicode []) = Return false /\
  (set_bold (FT := reference_engine 72) (VInt 3) ;;;
   set_italic (VUnicode [])) sample_world
  = (set_italic (FT := reference_engine 72) (VUnicode []) ;;;
     set_bold (VInt 3)) sample_world.
Proof.
  split; [reflexivity|]. split; [reflexivity|].
  exact (proj1 (@style_setters_commute
                  (reference_engine 72) (VInt 3) (VUnicode []) true false
                  sample_world eq_refl eq_refl)).
Defined.

Lemma style_setter_last_wins_witness :
  py_bool (VInt 3) = Return true /\
  py_bool VNone = Return false /\
  (set_bold (FT := reference_engine 72) (VInt 3) ;;; set_bold VNone)
    sample_world
  = set_bold (FT := reference_engine 72) (VBool false) sample_world.
Proof.
  split; [reflexivity|]. split; [reflexivity|].
  exact (proj1 (@style_setter_last_wins
                  (reference_engine 72) (VInt 3) VNone true false
                  sample_world eq_refl eq_refl)).
Defined.

Lemma render_sees_style_flags_witness :
  py_bool (VInt 1) = Return true /\
  ~ has_null (VBytes [x61]) /\
  py_bool VNone = Return false /\
  log (snd ((set_bold (FT := reference_engine 72) (VInt 1) ;;;
             render (VBytes [x61]) VNone (VObject 7 (Return true)) VNone)
              sample_world))
  = [] ++ [ERender (with_antialiased (VBool false)
                      (with_wide (VBool true) sample_font))
                   (VBytes [x61]) (VObject 7 (Return true)) VNone].
Proof.
  assert (Hclean : ~ has_null (VBytes [x61])).
  { simpl. intros [H|[]]. discriminate H. }
  split; [reflexivity|]. split; [exact Hclean|]. split; [reflexivity|].
  exact (@render_sees_style_flags
           (reference_engine 72) (VInt 1) (VBytes [x61]) VNone
           (VObject 7 (Return true)) VNone true false sample_world
           eq_refl Hclean eq_refl).
Defined.

(** ** The font SysFont answers *)

Section SysFontMore.
Context {FT : Freetype}.

(** X9.  When the font the matcher resolved can be built and the truth
    tests of the two style flags answer, [SysFont] without a constructor
    answers that font with [wide] and [oblique] set to the booleans of the
    flags the matcher handed over; everything else is as [Font] built it,
    the policy attributes included, and nothing is delegated beyond the
    calls of [Font]. *)
Theorem SysFont_builds_styled_font
        (name : value) (size : Z) (bold italic : value)
        (fontpath : value) (size' : Z) (bold' italic' : value)
        (b i : bool) (font0 : FontObject Handle)
        (calls calls' : list (call Handle)) :
  sysfont_resolve name size bold italic = (fontpath, size', bold', italic') ->
  Font fontpath size' calls = (Return font0, calls') ->
  py_bool bold' = Return b ->
  py_bool italic' = Return i ->
  exists font,
    SysFont name size bold italic None calls = (Return font, calls') /\
    wide font = VBool b /\
    oblique font = VBool i /\
    underline font = underline font0 /\
    antialiased font = antialiased font0 /\
    handle font = handle font0 /\
    has_policy_attributes font.
Proof.
  intros Hres Hfont Hb Hi.
  exists (with_oblique (VBool i) (with_wide (VBool b) font0)).
  split.
  - rewrite SysFont_forwards. unfold _SysFont. rewrite Hres.
    rewrite default_constructor_unfold, Hfont, Hb, Hi. reflexivity.
  - repeat split; apply (Font_returns_policy _ _ _ Hfont).
Qed.

End SysFontMore.

Lemma SysFont_builds_styled_font_witness :
  exists font,
    SysFont (FT := reference_engine 72)
            (VUnicode (unicode_of_string "arial")) 14 (VInt 1) (VInt 0)
            None []
    = (Return font, [EInit VNone 14 49]) /\
    wide font = VBool true /\
    oblique font = VBool false.
Proof.
  destruct (@SysFont_builds_styled_font
              (reference_engine 72)
              (VUnicode (unicode_of_string "arial")) 14 (VInt 1) (VInt 0)
              VNone 14 (VInt 1) (VInt 0) true false _ [] _
              eq_refl eq_refl eq_refl eq_refl)
    as (font & Hrun & Hwide & Hoblique & _).
  exists font. split; [exact Hrun|]. split; assumption.
Defined.

(** ** The resolution override *)

(** X10.  For an engine resolution [r] from 0 up to (not including)
    [2^49], the range on which line 42 computes exactly, the override
    computed for the default font is [floor(11 * r / 16)]: it never
    exceeds [r], it grows with [r], and from [r = 2] on it is at least 1
    and strictly below [r].  It is 0 exactly for [r = 0] and [r = 1]. *)
Theorem resolution_override_bounds (r : Z) :
  0 <= r < 2 ^ 49 ->
  16 * int_times_0_6875 r <= 11 * r < 16 * int_times_0_6875 r + 16 /\
  0 <= int_times_0_6875 r <= r /\
  (2 <= r -> 1 <= int_times_0_6875 r < r) /\
  (int_times_0_6875 r = 0 <-> r <= 1) /\
  (forall r', r <= r' < 2 ^ 49 ->
              int_times_0_6875 r <= int_times_0_6875 r').
Proof.
  intros [Hr _]. rewrite (int_times_0_6875_floor Hr).
  assert (Hdiv := Z.div_mod (11 * r) 16 ltac:(lia)).
  assert (Hmod := Z.mod_pos_bound (11 * r) 16 ltac:(lia)).
  split; [lia|]. split; [lia|]. split; [lia|]. split; [lia|].
  intros r' [Hle _]. rewrite int_times_0_6875_floor by lia.
  apply Z.div_le_mono; lia.
Qed.

Lemma resolution_override_bounds_witness :
  0 <= 72 < 2 ^ 49 /\ 1 <= int_times_0_6875 72 < 72.
Proof.
  assert (H : 0 <= 72 < 2 ^ 49) by (split; [lia | reflexivity]).
  split; [exact H|].
  apply (proj1 (proj2 (proj2 (resolution_override_bounds H)))).
  lia.
Defined.

(** ** Coercion to booleans *)

Section CoercionFacts.
Context {FT : Freetype}.

(** C10.  The setters and [render] coerce with [bool()].  For every
    argument value whose truth test answers [b], each setter returns and
    has stored the boolean [VBool b], never the value itself, in its flag
    and changed nothing else, and the getter then answers that boolean;
    when the truth test raises, the setter raises that exception and has
    stored nothing.  [render] of a text without a null character hands
    the engine, in its one delegated call, the instance with
    [antialiased] set to the boolean truth value of [antialias], and
    passes the exception on, with nothing changed, when the truth test
    raises.  Every call [render] delegates sees such a boolean, and an
    [antialiased] flag that holds a boolean before [render] holds one
    after it. *)
Theorem flags_are_coerced_to_bool (v : value) (w : World Handle) :
  (match py_bool v with
   | Return b =>
       set_bold v w
       = (Return tt, MkWorld (with_wide (VBool b) (self w)) (log w)) /\
       set_italic v w
       = (Return tt, MkWorld (with_oblique (VBool b) (self w)) (log w)) /\
       set_underline v w
       = (Return tt, MkWorld (with_underline (VBool b) (self w)) (log w)) /\
       get_bold (snd (set_bold v w))
       = (Return (VBool b), snd (set_bold v w)) /\
       get_italic (snd (set_italic v w))
       = (Return (VBool b), snd (set_italic v w)) /\
       get_underline (snd (set_underline v w))
       = (Return (VBool b), snd (set_underline v w))
   | Raise e =>
       set_bold v w = (Raise e, w) /\
       set_italic v w = (Raise e, w) /\
       set_underline v w = (Raise e, w)
   end) /\
  (forall text color background,
     ~ has_null text ->
     match py_bool v with
     | Return b =>
         log (snd (render text v color background w)) =
         log w ++ [ERender (with_antialiased (VBool b) (self w))
                           (text_or_empty text) color background]
     | Raise e => render text v color background w = (Raise e, w)
     end) /\
  (forall text color background,
     exists calls,
       log (snd (render text v color background w)) = log w ++ calls /\
       Forall (fun c =>
                 match c with
                 | ERender seen _ _ _ =>
                     exists b, py_bool v = Return b /\
                               antialiased seen = VBool b
                 | EInit _ _ _ => False
                 end) calls) /\
  (forall text color background,
     is_bool (antialiased (self w)) = true ->
     is_bool (antialiased (self (snd (render text v color background w))))
     = true).
Proof.
  unfold set_bold, set_italic, set_underline, get_bold, get_italic,
         get_underline.
  rewrite !setter_unfold.
  split; [|split; [|split]].
  - destruct (py_bool v) as [b|e]; repeat split.
  - intros text color background Hclean.
    rewrite render_unfold. cbv zeta. fold (text_or_empty text).
    rewrite (null_checks_pass text Hclean).
    destruct (py_bool v) as [b|e]; [|reflexivity].
    destruct (ft_render _ color background _) as [r f]. reflexivity.
  - intros text color background. rewrite render_unfold. cbv zeta.
    destruct (_ || _).
    { exists []. simpl. rewrite app_nil_r. split; constructor. }
    destruct (py_bool v) as [b|e] eqn:Hb.
    + destruct (ft_render _ color background _) as [r f]. simpl.
      eexists. split; [reflexivity|].
      constructor; [|constructor].
      exists b. split; reflexivity.
    + exists []. simpl. rewrite app_nil_r. split; constructor.
  - intros text color background Hbool.
    rewrite render_unfold. cbv zeta.
    destruct (_ || _); [exact Hbool|].
    destruct (py_bool v) as [b|e]; [|exact Hbool].
    destruct (ft_render _ color background _) as [r f]. exact Hbool.
Qed.

End CoercionFacts.
